(** * Role-based route middleware: the decision function of
    [middleware.ts] and [middleware.js], and its specification.

    The middleware reads the request's pathname and two cookies,
    [access_token] and [user_role], and answers with [NextResponse.next()]
    or with a redirect, possibly deleting both cookies.  Both source files
    are embedded, one definition per source function, and compared. *)

From Stdlib Require Import String List Bool.
From stdpp Require Import base option strings gmap list.

Local Open Scope string_scope.

(** ** JavaScript values used by the middleware *)

Module Js.

(** [s.startsWith(candidate)].  Every candidate below is ASCII, so the
    byte-wise prefix test agrees with the code-unit-wise one. *)
Definition startsWith (s candidate : string) : bool :=
  String.prefix candidate s.

(** [xs.some(p)] on an array. *)
Definition some {A} (p : A → bool) (xs : list A) : bool := existsb p xs.

(** Truthiness of a [string | undefined]: [undefined] and the empty
    string are falsy. *)
Definition truthy (v : option string) : bool :=
  match v with
  | Some s => negb (String.eqb s "")
  | None => false
  end.

(** Property key of a [string | undefined] used as an index:
    [obj[undefined]] reads the key ["undefined"]. *)
Definition key (v : option string) : string := default "undefined" v.

(** An evaluation either completes with a value or throws. *)
Inductive error := TypeError.

Inductive completion (A : Type) : Type :=
| Normal (v : A)
| Throw (e : error).

Arguments Normal {A} v.
Arguments Throw {A} e.

Definition bind {A B} (c : completion A) (k : A → completion B)
  : completion B :=
  match c with
  | Normal v => k v
  | Throw e => Throw e
  end.

(** The members every object literal inherits from [Object.prototype]:
    functions, and for ["__proto__"] the prototype object itself. *)
Definition Object_prototype : list string :=
  [ "constructor"; "hasOwnProperty"; "isPrototypeOf"; "propertyIsEnumerable";
    "toLocaleString"; "toString"; "valueOf"; "__proto__";
    "__defineGetter__"; "__defineSetter__"; "__lookupGetter__";
    "__lookupSetter__" ].

Definition inherits (k : string) : bool :=
  existsb (String.eqb k) Object_prototype.

(** What reading a property of an object literal yields: the value the
    literal declares, a member inherited from [Object.prototype] (truthy,
    neither a string nor an array), or [undefined]. *)
Inductive value (A : Type) : Type :=
| Val (v : A)
| Proto (name : string)
| Undefined.

Arguments Val {A} v.
Arguments Proto {A} name.
Arguments Undefined {A}.

(** [obj[k]] for an object literal with the own properties [obj]. *)
Definition get {A} (obj : gmap string A) (k : string) : value A :=
  match obj !! k with
  | Some v => Val v
  | None => if inherits k then Proto k else Undefined
  end.

(** [v || d] where the declared values are strings: the empty string and
    [undefined] are falsy. *)
Definition or_string (v : value string) (d : string) : value string :=
  match v with
  | Val s => if String.eqb s "" then Val d else Val s
  | Proto name => Proto name
  | Undefined => Val d
  end.

(** [v || d] where the declared values are arrays: only [undefined] is
    falsy. *)
Definition or_array {A} (v : value (list A)) (d : list A) : value (list A) :=
  match v with
  | Val xs => Val xs
  | Proto name => Proto name
  | Undefined => Val d
  end.

(** [v.some(p)]: only an array has the method; calling it on anything else
    throws a [TypeError]. *)
Definition some_method {A} (p : A → bool) (v : value (list A))
  : completion bool :=
  match v with
  | Val xs => Normal (some p xs)
  | Proto _ => Throw TypeError
  | Undefined => Throw TypeError
  end.

(** [Object.values(obj).flat()] for an object of arrays: own properties
    only. *)
Definition values_flat {A} (obj : gmap string (list A)) : list A :=
  concat (map_to_list obj).*2.

End Js.

(** ** Requests and responses *)

(** The part of a [NextRequest] the middleware reads: [nextUrl.pathname]
    and the cookie jar [request.cookies]. *)
Record NextRequest := mkRequest {
  pathname : string;
  cookies : gmap string string
}.

(** A [NextResponse]: [location] is [None] for [NextResponse.next()] and,
    for [NextResponse.redirect], the value that was assigned to the
    pathname of the target; [deleted] lists the cookies removed through
    [response.cookies.delete], in call order. *)
Record NextResponse := mkResponse {
  location : option (Js.value string);
  deleted : list string
}.

Definition next : NextResponse := mkResponse None [].
Definition redirect (target : Js.value string) : NextResponse :=
  mkResponse (Some target) [].

(** [response.cookies.delete(name)] *)
Definition cookies_delete (name : string) (response : NextResponse)
  : NextResponse :=
  mkResponse (location response) (deleted response ++ [name]).

(** The three decisions of the specification, as responses. *)
Definition Allow : NextResponse := next.
Definition Redirect (target : string) : NextResponse :=
  redirect (Js.Val target).
Definition RedirectAndClearCredentials (target : string) : NextResponse :=
  mkResponse (Some (Js.Val target)) ["access_token"; "user_role"].

(** The cookie jar after the client has applied a response. *)
Definition apply_response (jar : gmap string string) (response : NextResponse)
  : gmap string string :=
  foldl (fun j name => delete name j) jar (deleted response).

(** ** Route configuration (the same literals in both source files) *)

Definition PUBLIC_ROUTES : list string :=
  [ "/"; "/public"; "/login"; "/register"; "/admin/login";
    "/supplier/login"; "/courier/login"; "/reset-password";
    "/forgot-password"; "/verify-signup"; "/callback" ].

Definition EXCLUDED_PATHS : list string :=
  [ "/_next"; "/api"; "/public"; "/favicon.ico" ].

(** The own properties of the two role-keyed object literals.  They are
    read through [Js.get], which also finds the members inherited from
    [Object.prototype].  [Object.values] of a finite map lists the values
    in key order rather than in insertion order; [some] does not depend on
    the order, see [isProtectedRoute_prefixes]. *)
Definition ROLE_ACCESS_MAP : gmap string (list string) :=
  <[ "ADMIN" := ["/admin"; "/dashboard"] ]>
  (<[ "VENDOR" := ["/supplier"] ]>
  (<[ "DELIVERY" := ["/courier"] ]>
  (<[ "CLIENT" := ["/account"; "/orders"; "/cart"; "/notifications"] ]> ∅))).

Definition ROLE_DASHBOARD_MAP : gmap string string :=
  <[ "ADMIN" := "/admin/dashboard" ]>
  (<[ "VENDOR" := "/supplier/dashboard" ]>
  (<[ "DELIVERY" := "/courier/dashboard" ]>
  (<[ "CLIENT" := "/account" ]> ∅))).

(** ** middleware.ts *)

Module TS.

Definition isExcludedPath (path : string) : bool :=
  Js.some (fun excludedPath => Js.startsWith path excludedPath)
          EXCLUDED_PATHS.

Definition isPublicRoute (path : string) : bool :=
  Js.some (fun publicRoute =>
             if String.eqb publicRoute "/" && String.eqb path "/" then true
             else Js.startsWith path publicRoute)
          PUBLIC_ROUTES.

Definition isLoginRoute (path : string) : bool :=
  let loginRoutes :=
    ["/login"; "/admin/login"; "/supplier/login"; "/courier/login"] in
  Js.some (fun loginRoute => Js.startsWith path loginRoute) loginRoutes.

Definition determineLoginPath (path : string) : string :=
  if Js.startsWith path "/admin" then "/admin/login"
  else if Js.startsWith path "/supplier" then "/supplier/login"
  else if Js.startsWith path "/courier" then "/courier/login"
  else "/login".

(** [ROLE_ACCESS_MAP[userRole] || []] is an array for a role of the table
    and for a role the object does not know at all; for a role that names
    an inherited member it is that member, and [.some] throws. *)
Definition hasRoleAccess (userRole : option string) (currentPath : string)
  : Js.completion bool :=
  let userAllowedRoutes :=
    Js.or_array (Js.get ROLE_ACCESS_MAP (Js.key userRole)) [] in
  Js.some_method
    (fun allowedRoute => Js.startsWith currentPath allowedRoute)
    userAllowedRoutes.

Definition isProtectedRoute (path : string) : bool :=
  let allProtectedRoutes := Js.values_flat ROLE_ACCESS_MAP in
  Js.some (fun protectedRoute => Js.startsWith path protectedRoute)
          allProtectedRoutes.

Definition clearAuthCookies (response : NextResponse) : NextResponse :=
  cookies_delete "user_role" (cookies_delete "access_token" response).

(** The "Middleware Logic Flow" part of [middleware]: everything after
    the pathname and the two cookies have been read.  In step 4,
    [hasRoleAccess] is evaluated only when [isProtectedRoute] holds
    ([&&] short-circuits). *)
Definition decide (pathname : string) (token role : option string)
  : Js.completion NextResponse :=
  (* Step 1 *)
  if isExcludedPath pathname then Js.Normal next
  (* Step 2 *)
  else if isPublicRoute pathname then
    if Js.truthy token && Js.truthy role && isLoginRoute pathname then
      let dashboardPath :=
        Js.or_string (Js.get ROLE_DASHBOARD_MAP (Js.key role)) "/" in
      Js.Normal (redirect dashboardPath)
    else Js.Normal next
  (* Step 3 *)
  else if negb (Js.truthy token) then
    let loginPath := determineLoginPath pathname in
    Js.Normal (redirect (Js.Val loginPath))
  (* Step 4 *)
  else if Js.truthy role then
    if isProtectedRoute pathname then
      Js.bind (hasRoleAccess role pathname) (fun access =>
        if negb access then
          Js.Normal
            (redirect
               (Js.or_string (Js.get ROLE_DASHBOARD_MAP (Js.key role)) "/"))
        else
          (* Step 5 *)
          Js.Normal next)
    else
      (* Step 5 *)
      Js.Normal next
  else
    let response := redirect (Js.Val "/login") in
    Js.Normal (clearAuthCookies response).

Definition middleware (request : NextRequest)
  : Js.completion NextResponse :=
  let token := cookies request !! "access_token" in
  let role := cookies request !! "user_role" in
  decide (pathname request) token role.

End TS.

(** ** middleware.js *)

Module JS.

(** The body of [middleware] after the pathname and the two cookies have
    been read; the checks are inlined as in the source. *)
Definition decide (pathname : string) (token role : option string)
  : Js.completion NextResponse :=
  (* Step 1 *)
  let isExcludedPath :=
    Js.some (fun path => Js.startsWith pathname path) EXCLUDED_PATHS in
  if isExcludedPath then Js.Normal next
  else
    (* Step 2 *)
    let isPublicRoute :=
      Js.some (fun route =>
                 if String.eqb route "/" && String.eqb pathname "/" then true
                 else Js.startsWith pathname route)
              PUBLIC_ROUTES in
    if isPublicRoute then
      if Js.truthy token && Js.truthy role then
        let isLoginRoute :=
          Js.some (fun route => Js.startsWith pathname route)
                  ["/login"; "/admin/login"; "/supplier/login";
                   "/courier/login"] in
        if isLoginRoute then
          Js.Normal
            (redirect
               (Js.or_string (Js.get ROLE_DASHBOARD_MAP (Js.key role)) "/"))
        else Js.Normal next
      else Js.Normal next
    (* Step 3 *)
    else if negb (Js.truthy token) then
      let loginPath :=
        if Js.startsWith pathname "/admin" then "/admin/login"
        else if Js.startsWith pathname "/supplier" then "/supplier/login"
        else if Js.startsWith pathname "/courier" then "/courier/login"
        else "/login" in
      Js.Normal (redirect (Js.Val loginPath))
    (* Step 4 *)
    else if Js.truthy role then
      let currentProtectedRoutes := Js.values_flat ROLE_ACCESS_MAP in
      let isProtectedRoute :=
        Js.some (fun route => Js.startsWith pathname route)
                currentProtectedRoutes in
      if isProtectedRoute then
        let userAllowedRoutes :=
          Js.or_array (Js.get ROLE_ACCESS_MAP (Js.key role)) [] in
        Js.bind
          (Js.some_method
             (fun allowedRoute => Js.startsWith pathname allowedRoute)
             userAllowedRoutes)
          (fun hasAccess =>
             if negb hasAccess then
               Js.Normal
                 (redirect
                    (Js.or_string
                       (Js.get ROLE_DASHBOARD_MAP (Js.key role)) "/"))
             else
               (* Step 5 *)
               Js.Normal next)
      else
        (* Step 5 *)
        Js.Normal next
    else
      let response := redirect (Js.Val "/login") in
      let response := cookies_delete "access_token" response in
      Js.Normal (cookies_delete "user_role" response).

Definition middleware (request : NextRequest)
  : Js.completion NextResponse :=
  let token := cookies request !! "access_token" in
  let role := cookies request !! "user_role" in
  decide (pathname request) token role.

End JS.

(** ** Vocabulary of the specification *)

(** [dashboardOf(role)]: the value of [ROLE_DASHBOARD_MAP[role] || "/"]. *)
Definition dashboardOf (role : option string) : Js.value string :=
  Js.or_string (Js.get ROLE_DASHBOARD_MAP (Js.key role)) "/".

(** The four recognised roles. *)
Definition roles : list string := ["ADMIN"; "VENDOR"; "DELIVERY"; "CLIENT"].

(** The dashboards of the table, and the root path. *)
Definition dashboards : list string :=
  [ "/admin/dashboard"; "/supplier/dashboard"; "/courier/dashboard";
    "/account"; "/" ].


(** The public-route classification as the specification words it: the
    root entry by equality, every other entry by prefix. *)
Definition isPublicRoute_spec (path : string) : bool :=
  String.eqb path "/"
  || Js.some (fun publicRoute => Js.startsWith path publicRoute)
             (filter (fun publicRoute => publicRoute ≠ "/") PUBLIC_ROUTES).

(** The request a client sends after a redirect to the pathname [target]:
    that pathname, with the cookies the response deleted removed from the
    jar. *)
Definition follow (request : NextRequest) (target : string)
           (response : NextResponse) : NextRequest :=
  mkRequest target (apply_response (cookies request) response).

(** ** Facts about the JavaScript primitives *)

Section JsFacts.

Lemma startsWith_cons (a b : Ascii.ascii) (s t : string) :
  Js.startsWith (String b t) (String a s)
  = if Ascii.ascii_dec a b then Js.startsWith t s else false.
Proof. unfold Js.startsWith. simpl. by destruct (Ascii.ascii_dec a b). Qed.

(** A path that starts with a candidate starts with the candidate's
    first character. *)
Lemma startsWith_head (path : string) (a : Ascii.ascii) (s : string) :
  Js.startsWith path (String a s) = true →
  Js.startsWith path (String a "") = true.
Proof.
  destruct path as [|b t]; [done|].
  rewrite !startsWith_cons.
  destruct (Ascii.ascii_dec a b); [|done].
  intros _. unfold Js.startsWith. by destruct t.
Qed.

Lemma startsWith_nil (s : string) : Js.startsWith s "" = true.
Proof. by destruct s. Qed.

(** A path that extends a path inherits the prefixes of that path. *)
Lemma startsWith_trans (q p c : string) :
  Js.startsWith q p = true →
  Js.startsWith p c = true →
  Js.startsWith q c = true.
Proof.
  revert p q. induction c as [|a c IH]; intros p q Hqp Hpc;
    [apply startsWith_nil|].
  destruct p as [|b p]; [done|]. destruct q as [|d q]; [done|].
  rewrite startsWith_cons in *.
  destruct (Ascii.ascii_dec a b) as [->|]; [|done].
  destruct (Ascii.ascii_dec b d) as [->|]; [|done].
  by apply (IH p).
Qed.

(** Two prefixes of the same string are comparable. *)
Lemma startsWith_comparable (s a b : string) :
  Js.startsWith s a = true →
  Js.startsWith s b = true →
  Js.startsWith a b = true ∨ Js.startsWith b a = true.
Proof.
  revert a b. induction s as [|c s IH]; intros a b Ha Hb.
  - destruct a; [right; apply startsWith_nil | done].
  - destruct a as [|x a]; [right; apply startsWith_nil|].
    destruct b as [|y b]; [left; apply startsWith_nil|].
    rewrite startsWith_cons in Ha, Hb.
    destruct (Ascii.ascii_dec x c) as [->|]; [|done].
    destruct (Ascii.ascii_dec y c) as [->|]; [|done].
    rewrite !startsWith_cons.
    destruct (Ascii.ascii_dec c c); [|done]. by apply IH.
Qed.

Lemma some_false {A} (p : A → bool) (xs : list A) :
  Forall (fun x => p x = false) xs → Js.some p xs = false.
Proof.
  induction 1 as [|x xs Hx _ IH]; [done|].
  unfold Js.some in *. simpl. by rewrite Hx, IH.
Qed.

Lemma some_true {A} (p : A → bool) (xs : list A) (x : A) :
  In x xs → p x = true → Js.some p xs = true.
Proof. intros. apply existsb_exists. eauto. Qed.

Lemma some_inv {A} (p : A → bool) (xs : list A) :
  Js.some p xs = true → ∃ x, In x xs ∧ p x = true.
Proof. apply existsb_exists. Qed.

(** [some] over the same candidates is monotone in the tested path. *)
Lemma some_startsWith_extends (p q : string) (candidates : list string) :
  Js.startsWith q p = true →
  Js.some (fun c => Js.startsWith p c) candidates = true →
  Js.some (fun c => Js.startsWith q c) candidates = true.
Proof.
  intros Hqp (c & Hin & Hc)%some_inv.
  apply (some_true _ _ c Hin). by apply (startsWith_trans q p c).
Qed.

Lemma truthy_Some (s : string) : Js.truthy (Some s) = true ↔ s ≠ "".
Proof.
  unfold Js.truthy. rewrite negb_true_iff. apply String.eqb_neq.
Qed.

End JsFacts.

(** Two literal prefixes, neither of which extends the other, cannot both
    be prefixes of one path. *)
Ltac clash H1 H2 :=
  let C := fresh "C" in
  destruct (startsWith_comparable _ _ _ H1 H2) as [C|C];
  vm_compute in C; discriminate C.

(** A path without a leading slash starts with no literal that has one. *)
Ltac no_slash Hroot :=
  match goal with
  | |- Js.startsWith ?path ?r = false =>
      let Hr := fresh "Hr" in
      destruct (Js.startsWith path r) eqn:Hr; [|reflexivity];
      apply startsWith_head in Hr; congruence
  end.

(** Candidates of a literal list, one by one. *)
Ltac candidates H :=
  apply some_inv in H as (? & H & ?); simpl in H;
  repeat (destruct H as [<-|H]; [|]); [..|destruct H].

(** ** Facts about the route tables *)

Section Tables.

(** The dashboard lookup with its fallback, by cases on the key. *)
Lemma dashboardOf_cases (role : option string) :
  dashboardOf role
  = if decide (Js.key role = "ADMIN") then Js.Val "/admin/dashboard"
    else if decide (Js.key role = "VENDOR") then Js.Val "/supplier/dashboard"
    else if decide (Js.key role = "DELIVERY") then
      Js.Val "/courier/dashboard"
    else if decide (Js.key role = "CLIENT") then Js.Val "/account"
    else if Js.inherits (Js.key role) then Js.Proto (Js.key role)
    else Js.Val "/".
Proof.
  unfold dashboardOf, Js.get, ROLE_DASHBOARD_MAP.
  set (k := Js.key role). clearbody k.
  repeat (case_decide;
          [subst k; by rewrite lookup_insert_eq
          | rewrite lookup_insert_ne by done]).
  rewrite lookup_empty. by destruct (Js.inherits k).
Qed.


Lemma dashboardOf_val (role : option string) (d : string) :
  dashboardOf role = Js.Val d → In d dashboards.
Proof.
  rewrite dashboardOf_cases. unfold dashboards.
  repeat case_decide; try destruct (Js.inherits _);
    intros [= <-]; simpl; tauto.
Qed.

Lemma dashboardOf_unknown (r : string) :
  ¬ In r roles → Js.inherits r = false → dashboardOf (Some r) = Js.Val "/".
Proof.
  intros Hr Hplain. rewrite dashboardOf_cases. simpl Js.key.
  rewrite Hplain. unfold roles in Hr. simpl in Hr.
  repeat case_decide; try done; subst r; tauto.
Qed.

Lemma dashboardOf_role (r : string) :
  In r roles →
  ∃ d : string,
    ROLE_DASHBOARD_MAP !! r = Some d ∧ dashboardOf (Some r) = Js.Val d.
Proof.
  intros Hin. simpl in Hin.
  destruct Hin as [<-|[<-|[<-|[<-|[]]]]]; eexists; by vm_compute.
Qed.

Lemma determineLoginPath_cases (path : string) :
  In (TS.determineLoginPath path)
     ["/admin/login"; "/supplier/login"; "/courier/login"; "/login"].
Proof.
  unfold TS.determineLoginPath.
  destruct (Js.startsWith path "/admin"); [simpl; tauto|].
  destruct (Js.startsWith path "/supplier"); [simpl; tauto|].
  destruct (Js.startsWith path "/courier"); simpl; tauto.
Qed.

(** The gated prefixes, in the order the object literal declares them. *)
Lemma isProtectedRoute_prefixes (path : string) :
  TS.isProtectedRoute path
  = Js.some (fun protectedRoute => Js.startsWith path protectedRoute)
      ["/admin"; "/dashboard"; "/supplier"; "/courier";
       "/account"; "/orders"; "/cart"; "/notifications"].
Proof.
  unfold TS.isProtectedRoute.
  replace (Js.values_flat ROLE_ACCESS_MAP)
    with ["/account"; "/orders"; "/cart"; "/notifications";
          "/admin"; "/dashboard"; "/supplier"; "/courier"]
    by (vm_compute; reflexivity).
  unfold Js.some. simpl.
  repeat (destruct (Js.startsWith path _); simpl; try reflexivity).
Qed.

(** The access test of a role, by cases on the role: the prefixes of the
    table, a [TypeError] for a role that names an inherited member, no
    access for any other string. *)
Lemma hasRoleAccess_cases (r path : string) :
  TS.hasRoleAccess (Some r) path
  = if decide (r = "ADMIN") then
      Js.Normal (Js.startsWith path "/admin"
                 || Js.startsWith path "/dashboard")
    else if decide (r = "VENDOR") then
      Js.Normal (Js.startsWith path "/supplier")
    else if decide (r = "DELIVERY") then
      Js.Normal (Js.startsWith path "/courier")
    else if decide (r = "CLIENT") then
      Js.Normal (Js.startsWith path "/account"
                 || Js.startsWith path "/orders"
                 || Js.startsWith path "/cart"
                 || Js.startsWith path "/notifications")
    else if Js.inherits r then Js.Throw Js.TypeError
    else Js.Normal false.
Proof.
  unfold TS.hasRoleAccess, Js.get, ROLE_ACCESS_MAP, Js.some. simpl Js.key.
  repeat (case_decide;
          [subst r; rewrite lookup_insert_eq; simpl;
           by rewrite ?orb_false_r, ?orb_assoc
          | rewrite lookup_insert_ne by done]).
  rewrite lookup_empty. by destruct (Js.inherits r).
Qed.

(** Access to one path determines the role. *)
Lemma hasRoleAccess_exclusive (r1 r2 path : string) :
  TS.hasRoleAccess (Some r1) path = Js.Normal true →
  TS.hasRoleAccess (Some r2) path = Js.Normal true →
  r1 = r2.
Proof.
  rewrite !hasRoleAccess_cases. intros H1 H2.
  repeat case_decide; try congruence;
    try (destruct (Js.inherits r1); discriminate H1);
    try (destruct (Js.inherits r2); discriminate H2);
    injection H1 as H1; injection H2 as H2;
    repeat (apply orb_true_iff in H1 as [H1|H1]);
    repeat (apply orb_true_iff in H2 as [H2|H2]);
    clash H1 H2.
Qed.

End Tables.

(** ** The two implementations agree *)

Section Agreement.

Lemma js_ts_agree (path : string) (token role : option string) :
  JS.decide path token role = TS.decide path token role.
Proof.
  unfold JS.decide, TS.decide, TS.clearAuthCookies, TS.hasRoleAccess.
  fold (TS.isExcludedPath path). fold (TS.isPublicRoute path).
  fold (TS.isLoginRoute path). fold (TS.determineLoginPath path).
  fold (TS.isProtectedRoute path).
  cbv zeta.
  destruct (TS.isExcludedPath path); [done|].
  destruct (TS.isPublicRoute path).
  - destruct (Js.truthy token), (Js.truthy role); simpl; try done.
  - destruct (Js.truthy token); simpl; [|done].
    destruct (Js.truthy role); [|done].
    by destruct (TS.isProtectedRoute path).
Qed.

Lemma js_ts_middleware_agree (request : NextRequest) :
  JS.middleware request = TS.middleware request.
Proof. apply js_ts_agree. Qed.

End Agreement.

(** ** Route classification *)

Section Classification.

(** The root entry of [PUBLIC_ROUTES] falls through to the prefix test,
    so the public routes are the paths that start with a slash. *)
Lemma isPublicRoute_root_prefix (path : string) :
  TS.isPublicRoute path = Js.startsWith path "/".
Proof.
  destruct (Js.startsWith path "/") eqn:Hroot.
  - unfold TS.isPublicRoute, PUBLIC_ROUTES, Js.some. simpl existsb.
    rewrite Hroot. by destruct (String.eqb path "/").
  - apply some_false. unfold PUBLIC_ROUTES.
    repeat apply Forall_cons_2; try apply Forall_nil_2;
      try (simpl; no_slash Hroot).
    simpl. rewrite Hroot.
    destruct (String.eqb path "/") eqn:Heq; [|done].
    apply String.eqb_eq in Heq. by subst path.
Qed.

(** What [decide] answers once the path is classified as public. *)
Lemma decide_public (path : string) (token role : option string) :
  TS.isExcludedPath path = false →
  TS.isPublicRoute path = true →
  TS.decide path token role
  = if Js.truthy token && Js.truthy role && TS.isLoginRoute path
    then Js.Normal (redirect (dashboardOf role)) else Js.Normal Allow.
Proof. intros Hex Hpub. unfold TS.decide. by rewrite Hex, Hpub. Qed.

Lemma decide_excluded (path : string) (token role : option string) :
  TS.isExcludedPath path = true → TS.decide path token role = Js.Normal Allow.
Proof. intros Hex. unfold TS.decide. by rewrite Hex. Qed.

Lemma no_slash_not_excluded (path : string) :
  Js.startsWith path "/" = false → TS.isExcludedPath path = false.
Proof.
  intros Hroot. apply some_false. unfold EXCLUDED_PATHS.
  repeat apply Forall_cons_2; try apply Forall_nil_2; no_slash Hroot.
Qed.

Lemma no_slash_not_protected (path : string) :
  Js.startsWith path "/" = false → TS.isProtectedRoute path = false.
Proof.
  intros Hroot. rewrite isProtectedRoute_prefixes. apply some_false.
  repeat apply Forall_cons_2; try apply Forall_nil_2; no_slash Hroot.
Qed.

Lemma no_slash_login_path (path : string) :
  Js.startsWith path "/" = false → TS.determineLoginPath path = "/login".
Proof.
  intros Hroot. unfold TS.determineLoginPath.
  replace (Js.startsWith path "/admin") with false by (symmetry; no_slash Hroot).
  replace (Js.startsWith path "/supplier") with false
    by (symmetry; no_slash Hroot).
  by replace (Js.startsWith path "/courier") with false
    by (symmetry; no_slash Hroot).
Qed.

Lemma login_not_excluded (path : string) :
  TS.isLoginRoute path = true → TS.isExcludedPath path = false.
Proof.
  intros Hlogin. destruct (TS.isExcludedPath path) eqn:Hex; [|done].
  exfalso. candidates Hlogin; candidates Hex;
  match goal with H1 : Js.startsWith _ _ = true,
                  H2 : Js.startsWith _ _ = true |- _ => clash H1 H2 end.
Qed.

Lemma login_public (path : string) :
  TS.isLoginRoute path = true → TS.isPublicRoute path = true.
Proof.
  intros Hlogin. rewrite isPublicRoute_root_prefix.
  candidates Hlogin;
  match goal with H : Js.startsWith _ _ = true |- _ =>
    exact (startsWith_head _ _ _ H) end.
Qed.

Lemma protected_not_excluded (path : string) :
  TS.isProtectedRoute path = true → TS.isExcludedPath path = false.
Proof.
  rewrite isProtectedRoute_prefixes. intros Hprot.
  destruct (TS.isExcludedPath path) eqn:Hex; [|done].
  exfalso. candidates Hprot; candidates Hex;
  match goal with H1 : Js.startsWith _ _ = true,
                  H2 : Js.startsWith _ _ = true |- _ => clash H1 H2 end.
Qed.

Lemma protected_public (path : string) :
  TS.isProtectedRoute path = true → TS.isPublicRoute path = true.
Proof.
  rewrite isProtectedRoute_prefixes, isPublicRoute_root_prefix.
  intros Hprot. candidates Hprot;
  match goal with H : Js.startsWith _ _ = true |- _ =>
    exact (startsWith_head _ _ _ H) end.
Qed.

(** [decide] without the classifiers that do not influence it: the access
    test of step 4 is never reached, so the decision never throws. *)
Lemma decide_table (path : string) (token role : option string) :
  TS.decide path token role
  = if TS.isExcludedPath path then Js.Normal Allow
    else if Js.startsWith path "/" then
      if Js.truthy token && Js.truthy role && TS.isLoginRoute path
      then Js.Normal (redirect (dashboardOf role)) else Js.Normal Allow
    else if Js.truthy token then
      if Js.truthy role then Js.Normal Allow
      else Js.Normal (RedirectAndClearCredentials "/login")
    else Js.Normal (Redirect "/login").
Proof.
  unfold TS.decide. rewrite isPublicRoute_root_prefix.
  destruct (TS.isExcludedPath path); [done|].
  destruct (Js.startsWith path "/") eqn:Hroot; [done|].
  rewrite (no_slash_not_protected _ Hroot), (no_slash_login_path _ Hroot).
  by destruct (Js.truthy token), (Js.truthy role).
Qed.

(** A dashboard of the table, or the root path, is allowed to whoever asks
    for it. *)
Lemma dashboard_allowed (d : string) (token role : option string) :
  In d dashboards → TS.decide d token role = Js.Normal Allow.
Proof.
  intros Hd. simpl in Hd. rewrite decide_table.
  repeat (destruct Hd as [<-|Hd];
          [change (TS.isExcludedPath _) with false;
           change (Js.startsWith _ "/") with true;
           change (TS.isLoginRoute _) with false;
           by rewrite andb_false_r|]).
  destruct Hd.
Qed.


Lemma apply_response_nothing (jar : gmap string string)
      (target : Js.value string) :
  apply_response jar (redirect target) = jar.
Proof. done. Qed.

Lemma apply_response_cleared (jar : gmap string string) (target : string) :
  apply_response jar (RedirectAndClearCredentials target) !! "access_token"
  = None
  ∧ apply_response jar (RedirectAndClearCredentials target) !! "user_role"
    = None.
Proof.
  unfold apply_response. simpl.
  split; [rewrite lookup_delete_ne by done|]; apply lookup_delete_eq.
Qed.

End Classification.

(** ** Roles outside the tables *)

Section UnknownRole.

Variable r : string.
Hypothesis r_unknown : ¬ In r roles.
Hypothesis r_plain : Js.inherits r = false.

Lemma hasRoleAccess_unknown (path : string) :
  TS.hasRoleAccess (Some r) path = Js.Normal false.
Proof.
  rewrite hasRoleAccess_cases, r_plain. unfold roles in r_unknown.
  simpl in r_unknown. repeat case_decide; try done; subst r; tauto.
Qed.

(** A non-empty role that is neither in the tables nor the name of an
    inherited member is a role whose dashboard is the root path. *)
Lemma decide_unknown_role (path : string) (token : option string) :
  Js.truthy token = true →
  r ≠ "" →
  TS.decide path token (Some r)
  = if TS.isExcludedPath path then Js.Normal Allow
    else if Js.startsWith path "/" then
      if TS.isLoginRoute path then Js.Normal (Redirect "/")
      else Js.Normal Allow
    else Js.Normal Allow.
Proof.
  intros Htok Hr. apply truthy_Some in Hr.
  rewrite decide_table, Htok, Hr, (dashboardOf_unknown _ r_unknown r_plain).
  done.
Qed.

End UnknownRole.

(** With a token and without a role (or with the empty role string). *)
Lemma decide_role_absent (path : string) (token role : option string) :
  Js.truthy token = true →
  Js.truthy role = false →
  TS.decide path token role
  = if TS.isExcludedPath path then Js.Normal Allow
    else if TS.isPublicRoute path then Js.Normal Allow
    else Js.Normal (RedirectAndClearCredentials "/login").
Proof.
  intros Htok Hrole.
  rewrite decide_table, isPublicRoute_root_prefix, Htok, Hrole. simpl.
  by repeat case_match.
Qed.

(** ** The claims *)

(** C1 (the code departs from the claim).  The claim: a path is public
    exactly when it is the root path or starts with a non-root entry of
    [PUBLIC_ROUTES].  The code: the root entry is also tested as a prefix,
    so ["/account"], which the claim's classification rejects, is
    classified as public. *)
Theorem C1_root_entry_matches_by_prefix :
  TS.isPublicRoute "/account" = true
  ∧ isPublicRoute_spec "/account" = false
  ∧ TS.isExcludedPath "/account" = false.
Proof. by vm_compute. Qed.




(** C3 (the code departs from the claim).  The claim: without a token,
    ["/courier/orders"] is redirected to ["/courier/login"].  The code:
    the path is classified as public, so both implementations answer
    Allow whatever the role cookie holds, although [determineLoginPath]
    would choose ["/courier/login"]. *)
Theorem C3_courier_orders_without_token_allowed (role : option string) :
  TS.decide "/courier/orders" None role = Js.Normal Allow
  ∧ JS.decide "/courier/orders" None role = Js.Normal Allow
  ∧ TS.determineLoginPath "/courier/orders" = "/courier/login".
Proof. by vm_compute. Qed.

(** C4 (the code departs from the claim).  The claim: with token ["t"] and
    role VENDOR, ["/courier/orders"] is redirected to
    ["/supplier/dashboard"].  The code: the path is classified as public
    and is no login page, so both implementations answer Allow, although
    the path is role-gated and VENDOR has no access to it. *)
Theorem C4_vendor_on_courier_orders_allowed :
  TS.decide "/courier/orders" (Some "t") (Some "VENDOR") = Js.Normal Allow
  ∧ JS.decide "/courier/orders" (Some "t") (Some "VENDOR") = Js.Normal Allow
  ∧ TS.isProtectedRoute "/courier/orders" = true
  ∧ TS.hasRoleAccess (Some "VENDOR") "/courier/orders" = Js.Normal false
  ∧ dashboardOf (Some "VENDOR") = Js.Val "/supplier/dashboard".
Proof. by vm_compute. Qed.

(** C5 (the code departs from the claim).  The claim: with token ["t"] and
    no role, ["/account"] answers RedirectAndClearCredentials("/login"),
    and the next request, with both cookies cleared, answers
    Redirect("/login").  The code: ["/account"] is classified as public,
    so both requests are allowed and no cookie is deleted. *)
Theorem C5_account_with_token_without_role_allowed :
  let request := mkRequest "/account" {[ "access_token" := "t" ]} in
  let cleared :=
    apply_response (cookies request) (RedirectAndClearCredentials "/login") in
  TS.middleware request = Js.Normal Allow
  ∧ JS.middleware request = Js.Normal Allow
  ∧ cleared = ∅
  ∧ TS.middleware (mkRequest "/account" cleared) = Js.Normal Allow
  ∧ JS.middleware (mkRequest "/account" cleared) = Js.Normal Allow.
Proof. by vm_compute. Qed.

(** C6 (the claim as stated fails).  With token ["t"] on ["/login"], the
    unrecognised role ["GUEST"] is redirected to the root path while an
    absent role is allowed: the two decisions differ. *)
Lemma C6_counterexample :
  ¬ In "GUEST" roles
  ∧ TS.decide "/login" (Some "t") (Some "GUEST") = Js.Normal (Redirect "/")
  ∧ TS.decide "/login" (Some "t") None = Js.Normal Allow
  ∧ TS.decide "/login" (Some "t") (Some "GUEST")
    ≠ TS.decide "/login" (Some "t") None
  ∧ JS.decide "/login" (Some "t") (Some "GUEST")
    ≠ JS.decide "/login" (Some "t") None.
Proof.
  split; [simpl; intuition discriminate|].
  by vm_compute.
Qed.

(** C6 (amended).  With a token present, a non-empty role string that is
    neither one of ADMIN, VENDOR, DELIVERY, CLIENT nor the name of a member
    inherited from [Object.prototype] is treated as a present role whose
    dashboard is the root path, not as an absent role.  On an excluded path
    both are allowed.  On a path classified as public the unrecognised role
    gets Redirect("/") when the path has a login-page prefix and Allow
    otherwise, where the absent role (or the empty role string) is always
    allowed.  On a path that is neither excluded, nor classified as public,
    nor role-gated, the unrecognised role is allowed, where the absent role
    gets RedirectAndClearCredentials("/login").  Both implementations
    behave so. *)
Theorem C6_unknown_role_is_a_role_without_access
  (path tok r : string) (absent : option string) :
  tok ≠ "" →
  r ≠ "" →
  ¬ In r roles →
  Js.inherits r = false →
  Js.truthy absent = false →
  (TS.isExcludedPath path = true →
   TS.decide path (Some tok) (Some r) = Js.Normal Allow
   ∧ TS.decide path (Some tok) absent = Js.Normal Allow)
  ∧ (TS.isExcludedPath path = false →
     TS.isPublicRoute path = true →
     TS.decide path (Some tok) (Some r)
     = (if TS.isLoginRoute path then Js.Normal (Redirect "/")
        else Js.Normal Allow)
     ∧ TS.decide path (Some tok) absent = Js.Normal Allow)
  ∧ (TS.isExcludedPath path = false →
     TS.isPublicRoute path = false →
     TS.isProtectedRoute path = false →
     TS.decide path (Some tok) (Some r) = Js.Normal Allow
     ∧ TS.decide path (Some tok) absent
       = Js.Normal (RedirectAndClearCredentials "/login"))
  ∧ JS.decide path (Some tok) (Some r) = TS.decide path (Some tok) (Some r)
  ∧ JS.decide path (Some tok) absent = TS.decide path (Some tok) absent.
Proof.
  intros Htok Hr Hunknown Hplain Habsent.
  apply truthy_Some in Htok.
  pose proof (decide_unknown_role r Hunknown Hplain path (Some tok) Htok Hr)
    as Hu.
  pose proof (decide_role_absent path (Some tok) absent Htok Habsent) as Ha.
  rewrite isPublicRoute_root_prefix in *.
  split; [|split; [|split; [|split; apply js_ts_agree]]].
  - intros Hex. by rewrite Hu, Ha, Hex.
  - intros Hex Hpub. by rewrite Hu, Ha, Hex, Hpub.
  - intros Hex Hpub _. by rewrite Hu, Ha, Hex, Hpub.
Qed.

Lemma C6_witness :
  "t" ≠ "" ∧ "GUEST" ≠ "" ∧ ¬ In "GUEST" roles
  ∧ Js.inherits "GUEST" = false ∧ Js.truthy None = false
  ∧ (TS.isExcludedPath "/api/users" = true
     ∧ TS.decide "/api/users" (Some "t") (Some "GUEST") = Js.Normal Allow)
  ∧ (TS.isExcludedPath "/login" = false
     ∧ TS.isPublicRoute "/login" = true
     ∧ TS.decide "/login" (Some "t") (Some "GUEST")
       = Js.Normal (Redirect "/")
     ∧ TS.decide "/login" (Some "t") None = Js.Normal Allow)
  ∧ (TS.isExcludedPath "dashboard" = false
     ∧ TS.isPublicRoute "dashboard" = false
     ∧ TS.isProtectedRoute "dashboard" = false
     ∧ TS.decide "dashboard" (Some "t") (Some "GUEST") = Js.Normal Allow
     ∧ TS.decide "dashboard" (Some "t") None
       = Js.Normal (RedirectAndClearCredentials "/login")).
Proof.
  assert (Ht : "t" ≠ "") by discriminate.
  assert (Hg : "GUEST" ≠ "") by discriminate.
  assert (Hr : ¬ In "GUEST" roles) by (simpl; intuition discriminate).
  assert (Hp : Js.inherits "GUEST" = false) by reflexivity.
  assert (Hprot : TS.isProtectedRoute "dashboard" = false)
    by (vm_compute; reflexivity).
  split; [exact Ht|]. split; [exact Hg|]. split; [exact Hr|].
  split; [exact Hp|]. split; [reflexivity|].
  split; [|split].
  - split; [reflexivity|].
    exact (proj1 (proj1 (C6_unknown_role_is_a_role_without_access
                           "/api/users" "t" "GUEST" None Ht Hg Hr Hp eq_refl)
                    eq_refl)).
  - split; [reflexivity|]. split; [reflexivity|].
    exact (proj1 (proj2 (C6_unknown_role_is_a_role_without_access
                           "/login" "t" "GUEST" None Ht Hg Hr Hp eq_refl))
             eq_refl eq_refl).
  - split; [reflexivity|]. split; [reflexivity|]. split; [exact Hprot|].
    exact (proj1 (proj2 (proj2 (C6_unknown_role_is_a_role_without_access
                                  "dashboard" "t" "GUEST" None
                                  Ht Hg Hr Hp eq_refl)))
             eq_refl eq_refl Hprot).
Defined.

(** C7.  For every path that starts with one of the excluded prefixes
    ["/_next"], ["/api"], ["/public"], ["/favicon.ico"], the decision is
    Allow for every token and every role, in both implementations and for
    every cookie jar: the exclusion check comes first and nothing after it
    is evaluated. *)
Theorem C7_excluded_paths_are_allowed
  (excluded path : string) (token role : option string) :
  In excluded ["/_next"; "/api"; "/public"; "/favicon.ico"] →
  Js.startsWith path excluded = true →
  TS.decide path token role = Js.Normal Allow
  ∧ JS.decide path token role = Js.Normal Allow
  ∧ (∀ jar, TS.middleware (mkRequest path jar) = Js.Normal Allow)
  ∧ (∀ jar, JS.middleware (mkRequest path jar) = Js.Normal Allow).
Proof.
  intros Hin Hstarts.
  assert (Hex : TS.isExcludedPath path = true).
  { unfold TS.isExcludedPath, Js.some. apply existsb_exists.
    exists excluded. by split. }
  repeat split; intros;
    rewrite ?js_ts_middleware_agree, ?js_ts_agree;
    by apply decide_excluded.
Qed.

Lemma C7_witness :
  In "/api" ["/_next"; "/api"; "/public"; "/favicon.ico"]
  ∧ Js.startsWith "/api/users" "/api" = true
  ∧ TS.decide "/api/users" (Some "t") (Some "ADMIN") = Js.Normal Allow.
Proof.
  assert (Hin : In "/api" ["/_next"; "/api"; "/public"; "/favicon.ico"])
    by (right; left; reflexivity).
  split; [exact Hin|]. split; [reflexivity|].
  exact (proj1 (C7_excluded_paths_are_allowed
                  "/api" "/api/users" (Some "t") (Some "ADMIN")
                  Hin eq_refl)).
Defined.

(** C8.  With token ["t"] and role ADMIN, ["/admin/login"] answers
    Redirect("/admin/dashboard"), in both implementations.  In general a
    request with a token and one of the four roles for a public path with a
    login-page prefix is redirected to the dashboard the table gives for
    that role. *)
Theorem C8_authenticated_login_page_redirects_to_dashboard :
  TS.decide "/admin/login" (Some "t") (Some "ADMIN")
  = Js.Normal (Redirect "/admin/dashboard")
  ∧ JS.decide "/admin/login" (Some "t") (Some "ADMIN")
    = Js.Normal (Redirect "/admin/dashboard")
  ∧ (∀ (path : string) (token : option string) (r : string),
       Js.truthy token = true →
       In r roles →
       TS.isExcludedPath path = false →
       TS.isPublicRoute path = true →
       TS.isLoginRoute path = true →
       ∃ d : string,
         ROLE_DASHBOARD_MAP !! r = Some d
         ∧ TS.decide path token (Some r) = Js.Normal (Redirect d)
         ∧ JS.decide path token (Some r) = Js.Normal (Redirect d)).
Proof.
  split; [by vm_compute|]. split; [by vm_compute|].
  intros path token r Htok Hin Hex Hpub Hlogin.
  destruct (dashboardOf_role r Hin) as (d & Hd & Hdash).
  assert (Hrole : Js.truthy (Some r) = true).
  { simpl in Hin. by destruct Hin as [<-|[<-|[<-|[<-|[]]]]]. }
  exists d. split; [exact Hd|].
  rewrite js_ts_agree, (decide_public _ _ _ Hex Hpub).
  by rewrite Htok, Hrole, Hlogin, Hdash.
Qed.

Lemma C8_witness :
  Js.truthy (Some "t") = true
  ∧ In "CLIENT" roles
  ∧ TS.isExcludedPath "/login" = false
  ∧ TS.isPublicRoute "/login" = true
  ∧ TS.isLoginRoute "/login" = true
  ∧ ∃ d : string,
      ROLE_DASHBOARD_MAP !! "CLIENT" = Some d
      ∧ TS.decide "/login" (Some "t") (Some "CLIENT") = Js.Normal (Redirect d)
      ∧ JS.decide "/login" (Some "t") (Some "CLIENT")
        = Js.Normal (Redirect d).
Proof.
  assert (Hin : In "CLIENT" roles) by (do 3 right; left; reflexivity).
  split; [reflexivity|]. split; [exact Hin|].
  do 3 (split; [reflexivity|]).
  exact (proj2 (proj2 C8_authenticated_login_page_redirects_to_dashboard)
           "/login" (Some "t") "CLIENT"
           eq_refl Hin eq_refl eq_refl eq_refl).
Defined.

(** C9.  The JavaScript and the TypeScript implementation are equivalent:
    for every path, token and role they give the same decision (same
    outcome, same redirect target, same cleared cookies), and so they give
    the same response to every request. *)
Theorem C9_js_and_ts_are_equivalent :
  (∀ (path : string) (token role : option string),
     JS.decide path token role = TS.decide path token role)
  ∧ (∀ request : NextRequest, JS.middleware request = TS.middleware request).
Proof. split; [apply js_ts_agree | apply js_ts_middleware_agree]. Qed.




(** ** Further properties of the middleware *)

(** X1.  The decision on every input, in both implementations: Allow on an
    excluded path; on any other path with a leading slash, a redirect to
    the value of [ROLE_DASHBOARD_MAP[role] || "/"] when token and role are
    present and the path has a login-page prefix, Allow otherwise; on a
    path without a leading slash, Redirect("/login") without a token,
    RedirectAndClearCredentials("/login") with a token and no role, Allow
    with both.  Neither the role's access prefixes nor [determineLoginPath]
    ever change the answer, and the middleware never throws. *)
Theorem X1_decision_table (path : string) (token role : option string) :
  let table :=
    if TS.isExcludedPath path then Js.Normal Allow
    else if Js.startsWith path "/" then
      if Js.truthy token && Js.truthy role && TS.isLoginRoute path
      then Js.Normal (redirect (dashboardOf role)) else Js.Normal Allow
    else if Js.truthy token then
      if Js.truthy role then Js.Normal Allow
      else Js.Normal (RedirectAndClearCredentials "/login")
    else Js.Normal (Redirect "/login") in
  TS.decide path token role = table ∧ JS.decide path token role = table.
Proof.
  cbv zeta. rewrite js_ts_agree. split; apply decide_table.
Qed.

(** X2.  A path with a login-page prefix is never excluded and always
    public, so the middleware answers it with a redirect to the value of
    [ROLE_DASHBOARD_MAP[role] || "/"] exactly when token and role are both
    present, and lets it through otherwise. *)
Theorem X2_login_routes_are_public
  (path : string) (token role : option string) :
  TS.isLoginRoute path = true →
  TS.isExcludedPath path = false
  ∧ TS.isPublicRoute path = true
  ∧ TS.decide path token role
    = (if Js.truthy token && Js.truthy role
       then Js.Normal (redirect (dashboardOf role)) else Js.Normal Allow)
  ∧ JS.decide path token role = TS.decide path token role.
Proof.
  intros Hlogin.
  pose proof (login_not_excluded _ Hlogin) as Hex.
  pose proof (login_public _ Hlogin) as Hpub.
  split; [exact Hex|]. split; [exact Hpub|]. split; [|apply js_ts_agree].
  rewrite (decide_public _ _ _ Hex Hpub), Hlogin. by rewrite andb_true_r.
Qed.

Lemma X2_witness :
  TS.isLoginRoute "/supplier/login/reset" = true
  ∧ TS.decide "/supplier/login/reset" (Some "t") (Some "VENDOR")
    = Js.Normal (Redirect "/supplier/dashboard").
Proof.
  split; [reflexivity|].
  exact (proj1 (proj2 (proj2 (X2_login_routes_are_public
                  "/supplier/login/reset" (Some "t") (Some "VENDOR")
                  eq_refl)))).
Defined.

(** X3.  A path is role-gated ([isProtectedRoute]) exactly when one of the
    four roles of the access table has access to it ([hasRoleAccess]). *)
Theorem X3_protected_iff_some_role_has_access (path : string) :
  TS.isProtectedRoute path = true
  ↔ ∃ r : string,
      In r roles ∧ TS.hasRoleAccess (Some r) path = Js.Normal true.
Proof.
  rewrite isProtectedRoute_prefixes. split.
  - intros (p & Hin & Hp)%some_inv. simpl in Hin.
    repeat (destruct Hin as [<-|Hin];
            [first
               [ exists "ADMIN"; split; [simpl; tauto|];
                 rewrite hasRoleAccess_cases; simpl; rewrite Hp;
                 by rewrite ?orb_true_r
               | exists "VENDOR"; split; [simpl; tauto|];
                 rewrite hasRoleAccess_cases; simpl; by rewrite Hp
               | exists "DELIVERY"; split; [simpl; tauto|];
                 rewrite hasRoleAccess_cases; simpl; by rewrite Hp
               | exists "CLIENT"; split; [simpl; tauto|];
                 rewrite hasRoleAccess_cases; simpl; rewrite Hp;
                 by rewrite ?orb_true_r ]|]).
    destruct Hin.
  - intros (r & _ & Hr). rewrite hasRoleAccess_cases in Hr.
    unfold Js.some. simpl.
    repeat case_decide;
      try (destruct (Js.inherits r); discriminate Hr);
      injection Hr as Hr;
      repeat (apply orb_true_iff in Hr as [Hr|Hr]);
      rewrite Hr; by rewrite ?orb_true_r.
Qed.

(** X4.  The areas of the roles are disjoint: no path is accessible to two
    different roles. *)
Theorem X4_role_areas_are_disjoint (r1 r2 path : string) :
  TS.hasRoleAccess (Some r1) path = Js.Normal true →
  TS.hasRoleAccess (Some r2) path = Js.Normal true →
  r1 = r2.
Proof. apply hasRoleAccess_exclusive. Qed.

Lemma X4_witness :
  TS.hasRoleAccess (Some "CLIENT") "/cart/items" = Js.Normal true
  ∧ "CLIENT" = "CLIENT".
Proof.
  assert (H : TS.hasRoleAccess (Some "CLIENT") "/cart/items"
              = Js.Normal true) by (vm_compute; reflexivity).
  split; [exact H|].
  exact (X4_role_areas_are_disjoint "CLIENT" "CLIENT" "/cart/items" H H).
Defined.

(** X5.  A role-gated path is never excluded and always classified as
    public; so it is decided in the public branch, where the role's access
    prefixes are not consulted: with token and role present it is allowed
    unless it has a login-page prefix, whether or not the role has access
    to it. *)
Theorem X5_gated_paths_take_the_public_branch
  (path : string) (token role : option string) :
  TS.isProtectedRoute path = true →
  TS.isExcludedPath path = false
  ∧ TS.isPublicRoute path = true
  ∧ TS.decide path token role
    = (if Js.truthy token && Js.truthy role && TS.isLoginRoute path
       then Js.Normal (redirect (dashboardOf role)) else Js.Normal Allow)
  ∧ (TS.isLoginRoute path = false →
     TS.decide path token role = Js.Normal Allow)
  ∧ JS.decide path token role = TS.decide path token role.
Proof.
  intros Hprot.
  pose proof (protected_not_excluded _ Hprot) as Hex.
  pose proof (protected_public _ Hprot) as Hpub.
  pose proof (decide_public _ token role Hex Hpub) as Hd.
  split; [exact Hex|]. split; [exact Hpub|]. split; [exact Hd|].
  split; [|apply js_ts_agree].
  intros Hlogin. rewrite Hd, Hlogin. by rewrite andb_false_r.
Qed.

Lemma X5_witness :
  TS.isProtectedRoute "/admin/users" = true
  ∧ TS.hasRoleAccess (Some "CLIENT") "/admin/users" = Js.Normal false
  ∧ TS.decide "/admin/users" (Some "t") (Some "CLIENT") = Js.Normal Allow.
Proof.
  assert (Hprot : TS.isProtectedRoute "/admin/users" = true)
    by (vm_compute; reflexivity).
  assert (Hlogin : TS.isLoginRoute "/admin/users" = false)
    by (vm_compute; reflexivity).
  split; [exact Hprot|]. split; [vm_compute; reflexivity|].
  exact (proj1 (proj2 (proj2 (proj2 (X5_gated_paths_take_the_public_branch
                  "/admin/users" (Some "t") (Some "CLIENT") Hprot))))
           Hlogin).
Defined.

(** X6.  The token is tested for presence only, and the role is read only
    behind a token: two requests for the same path get the same decision
    as soon as their tokens are both present or both missing (empty counts
    as missing) and, when present, their roles are both missing or are the
    same present role. *)
Theorem X6_credentials_matter_by_presence
  (path : string) (t1 t2 r1 r2 : option string) :
  Js.truthy t1 = Js.truthy t2 →
  (Js.truthy t1 = true →
   Js.truthy r1 = Js.truthy r2 ∧ (Js.truthy r1 = true → r1 = r2)) →
  TS.decide path t1 r1 = TS.decide path t2 r2
  ∧ JS.decide path t1 r1 = JS.decide path t2 r2.
Proof.
  intros Ht Hr. rewrite !js_ts_agree.
  assert (Hd : TS.decide path t1 r1 = TS.decide path t2 r2); [|by split].
  rewrite !decide_table, <- Ht.
  destruct (Js.truthy t1); [|done].
  destruct Hr as [Hr Heq]; [done|]. rewrite <- Hr.
  destruct (Js.truthy r1); [|done]. by rewrite (Heq eq_refl).
Qed.

Lemma X6_witness :
  Js.truthy (Some "") = Js.truthy None
  ∧ TS.decide "/admin" (Some "") (Some "ADMIN")
    = TS.decide "/admin" None (Some "CLIENT").
Proof.
  assert (Ht : Js.truthy (Some "") = Js.truthy None) by reflexivity.
  split; [exact Ht|].
  refine (proj1 (X6_credentials_matter_by_presence
                   "/admin" (Some "") None (Some "ADMIN") (Some "CLIENT")
                   Ht _)).
  intros Habsurd. discriminate Habsurd.
Defined.

(** X7.  The middleware deletes cookies in one situation only: token
    present, role missing, on a path without a leading slash.  The response
    is then RedirectAndClearCredentials("/login"), which deletes the cookies
    [access_token] and [user_role] and nothing else; every other response
    deletes nothing. *)
Theorem X7_cookies_are_cleared_only_for_a_token_without_role
  (path : string) (token role : option string) :
  (TS.decide path token role
   = Js.Normal (RedirectAndClearCredentials "/login")
   ↔ Js.startsWith path "/" = false
     ∧ Js.truthy token = true ∧ Js.truthy role = false)
  ∧ (TS.decide path token role
     = Js.Normal (RedirectAndClearCredentials "/login")
     ∨ ∃ response : NextResponse,
         TS.decide path token role = Js.Normal response
         ∧ deleted response = [])
  ∧ JS.decide path token role = TS.decide path token role.
Proof.
  split; [|split; [|apply js_ts_agree]]; rewrite decide_table.
  - destruct (Js.startsWith path "/") eqn:Hroot.
    + split; [|intros (? & _); done].
      by repeat case_match.
    + rewrite (no_slash_not_excluded _ Hroot).
      destruct (Js.truthy token), (Js.truthy role); split; try done;
        intros (_ & ? & ?); done.
  - repeat case_match; auto; right; eexists; by split.
Qed.

(** X8.  Matching is by raw string prefix, so every classification of a
    path carries over to every path that extends it, at a segment boundary
    or not: excluded, public, login page, role-gated, accessible to a
    role. *)
Theorem X8_classification_carries_over_to_extensions (p q : string) :
  Js.startsWith q p = true →
  (TS.isExcludedPath p = true → TS.isExcludedPath q = true)
  ∧ (TS.isPublicRoute p = true → TS.isPublicRoute q = true)
  ∧ (TS.isLoginRoute p = true → TS.isLoginRoute q = true)
  ∧ (TS.isProtectedRoute p = true → TS.isProtectedRoute q = true)
  ∧ (∀ role, TS.hasRoleAccess role p = Js.Normal true →
             TS.hasRoleAccess role q = Js.Normal true).
Proof.
  intros Hqp.
  split; [apply (some_startsWith_extends _ _ _ Hqp)|].
  split; [rewrite !isPublicRoute_root_prefix; apply (startsWith_trans _ _ _ Hqp)|].
  split; [apply (some_startsWith_extends _ _ _ Hqp)|].
  split; [apply (some_startsWith_extends _ _ _ Hqp)|].
  intros role. unfold TS.hasRoleAccess.
  destruct (Js.or_array _ _) as [xs| |]; simpl; try discriminate.
  intros [= Hp]. f_equal. by apply (some_startsWith_extends _ _ _ Hqp).
Qed.

Lemma X8_witness :
  Js.startsWith "/accountable" "/account" = true
  ∧ TS.hasRoleAccess (Some "CLIENT") "/accountable" = Js.Normal true.
Proof.
  assert (Hqp : Js.startsWith "/accountable" "/account" = true)
    by reflexivity.
  assert (Hp : TS.hasRoleAccess (Some "CLIENT") "/account" = Js.Normal true)
    by (vm_compute; reflexivity).
  split; [exact Hqp|].
  exact (proj2 (proj2 (proj2 (proj2
           (X8_classification_carries_over_to_extensions
              "/account" "/accountable" Hqp))))
           (Some "CLIENT") Hp).
Defined.

(** X9.  [determineLoginPath] always names a login page, and names the same
    page again when applied to its own result.  The three area prefixes
    exclude one another, so a path under ["/admin"], ["/supplier"] or
    ["/courier"] gets the login page of that very area, and a path under
    none of them gets ["/login"]. *)
Theorem X9_login_path_of_the_area (path : string) :
  TS.isLoginRoute (TS.determineLoginPath path) = true
  ∧ TS.determineLoginPath (TS.determineLoginPath path)
    = TS.determineLoginPath path
  ∧ (∀ area : string,
       In area ["/admin"; "/supplier"; "/courier"] →
       Js.startsWith path area = true →
       TS.determineLoginPath path = area ++ "/login")
  ∧ ((∀ area : string,
        In area ["/admin"; "/supplier"; "/courier"] →
        Js.startsWith path area = false) →
     TS.determineLoginPath path = "/login").
Proof.
  split; [|split; [|split]].
  - pose proof (determineLoginPath_cases path) as H. simpl in H.
    repeat (destruct H as [<-|H]; [by vm_compute|]). destruct H.
  - pose proof (determineLoginPath_cases path) as H. simpl in H.
    repeat (destruct H as [<-|H]; [by vm_compute|]). destruct H.
  - intros area Hin Harea. unfold TS.determineLoginPath. simpl in Hin.
    destruct Hin as [<-|[<-|[<-|[]]]].
    + by rewrite Harea.
    + destruct (Js.startsWith path "/admin") eqn:H1; [clash H1 Harea|].
      by rewrite Harea.
    + destruct (Js.startsWith path "/admin") eqn:H1; [clash H1 Harea|].
      destruct (Js.startsWith path "/supplier") eqn:H2; [clash H2 Harea|].
      by rewrite Harea.
  - intros Hnone. unfold TS.determineLoginPath.
    rewrite !Hnone by (simpl; tauto). done.
Qed.

Lemma X9_witness :
  In "/supplier" ["/admin"; "/supplier"; "/courier"]
  ∧ Js.startsWith "/supplier/products" "/supplier" = true
  ∧ TS.determineLoginPath "/supplier/products" = "/supplier/login".
Proof.
  assert (Hin : In "/supplier" ["/admin"; "/supplier"; "/courier"])
    by (right; left; reflexivity).
  split; [exact Hin|]. split; [reflexivity|].
  exact (proj1 (proj2 (proj2 (X9_login_path_of_the_area "/supplier/products")))
           "/supplier" Hin eq_refl).
Defined.

(** X10.  No redirect loop: when the middleware answers a request with a
    redirect whose target is a pathname string (every redirect but the one
    to a member inherited under the role's name), the request the client
    sends next, for that pathname and with the cookies the response deleted
    removed, is allowed.  This holds for both implementations. *)
Theorem X10_a_redirect_is_followed_by_allow
  (request : NextRequest) (response : NextResponse) (target : string) :
  TS.middleware request = Js.Normal response →
  location response = Some (Js.Val target) →
  TS.middleware (follow request target response) = Js.Normal Allow
  ∧ JS.middleware request = Js.Normal response
  ∧ JS.middleware (follow request target response) = Js.Normal Allow.
Proof.
  rewrite !js_ts_middleware_agree.
  destruct request as [path jar]. unfold TS.middleware, follow.
  cbn [pathname cookies].
  set (token := jar !! "access_token"). set (role := jar !! "user_role").
  intros Hd Hloc.
  assert (Hgoal :
    TS.decide target
      (apply_response jar response !! "access_token")
      (apply_response jar response !! "user_role")
    = Js.Normal Allow); [|by repeat split].
  revert Hd. rewrite decide_table.
  destruct (TS.isExcludedPath path); [intros [= <-]; discriminate Hloc|].
  destruct (Js.startsWith path "/").
  - destruct (Js.truthy token && Js.truthy role && TS.isLoginRoute path);
      intros [= <-]; [|discriminate Hloc].
    injection Hloc as Hloc. rewrite apply_response_nothing.
    apply dashboard_allowed. by apply (dashboardOf_val role).
  - destruct (Js.truthy token) eqn:Htok.
    + destruct (Js.truthy role); intros [= <-]; [discriminate Hloc|].
      injection Hloc as <-.
      destruct (apply_response_cleared jar "/login") as [-> ->].
      by vm_compute.
    + intros [= <-]. injection Hloc as <-.
      unfold Redirect. rewrite apply_response_nothing.
      fold token. rewrite decide_table, Htok. by vm_compute.
Qed.

Lemma X10_witness :
  let request :=
    mkRequest "/login" {[ "access_token" := "t"; "user_role" := "ADMIN" ]} in
  TS.middleware request = Js.Normal (Redirect "/admin/dashboard")
  ∧ location (Redirect "/admin/dashboard") = Some (Js.Val "/admin/dashboard")
  ∧ TS.middleware
      (follow request "/admin/dashboard" (Redirect "/admin/dashboard"))
    = Js.Normal Allow.
Proof.
  cbv zeta.
  assert (Hd :
    TS.middleware
      (mkRequest "/login"
         {[ "access_token" := "t"; "user_role" := "ADMIN" ]})
    = Js.Normal (Redirect "/admin/dashboard")) by (vm_compute; reflexivity).
  split; [exact Hd|]. split; [reflexivity|].
  exact (proj1 (X10_a_redirect_is_followed_by_allow _ _ _ Hd eq_refl)).
Defined.

(** X11.  Every role of the tables has access to its own dashboard.  No
    other role string is granted access to that dashboard: the access test
    throws a [TypeError] for a string that names a member inherited from
    [Object.prototype] and answers false for any other string. *)
Theorem X11_dashboards_lie_in_their_own_area (r other : string) :
  In r roles →
  ∃ d : string,
    dashboardOf (Some r) = Js.Val d
    ∧ TS.hasRoleAccess (Some r) d = Js.Normal true
    ∧ (other ≠ r →
       TS.hasRoleAccess (Some other) d
       = if Js.inherits other then Js.Throw Js.TypeError
         else Js.Normal false).
Proof.
  intros Hin.
  destruct (dashboardOf_role r Hin) as (d & _ & Hd).
  assert (Hown : TS.hasRoleAccess (Some r) d = Js.Normal true).
  { simpl in Hin.
    destruct Hin as [<-|[<-|[<-|[<-|[]]]]];
      vm_compute in Hd; injection Hd as <-; by vm_compute. }
  exists d. split; [exact Hd|]. split; [exact Hown|].
  intros Hother.
  assert (Hne : TS.hasRoleAccess (Some other) d ≠ Js.Normal true).
  { intros Hacc. apply Hother.
    exact (hasRoleAccess_exclusive other r _ Hacc Hown). }
  rewrite hasRoleAccess_cases in Hne |- *.
  repeat case_decide; try reflexivity; subst other;
    match goal with
    | |- Js.Normal ?b = _ => destruct b; [by destruct Hne | by vm_compute]
    end.
Qed.

Lemma X11_witness :
  In "VENDOR" roles
  ∧ ∃ d : string,
      dashboardOf (Some "VENDOR") = Js.Val d
      ∧ TS.hasRoleAccess (Some "VENDOR") d = Js.Normal true.
Proof.
  assert (Hin : In "VENDOR" roles) by (right; left; reflexivity).
  split; [exact Hin|].
  destruct (X11_dashboards_lie_in_their_own_area "VENDOR" "ADMIN" Hin)
    as (d & Hd & Hown & _).
  exists d. by split.
Defined.
